(** * gcpdiag.queries.notebooks: Vertex AI Workbench notebook queries

    A shallow embedding of [gcpdiag/queries/notebooks.py] and the proofs of
    its specification.

    Python dictionaries are finite maps ([gmap]); the dictionaries decoded
    from the API have string keys.  The only fields this module reads are
    [name] (typed [str] by the accessors' annotations) and [healthState]
    (handed to the enum constructor), so field values are strings.
    Exceptions, the log, the requests sent to the notebooks API and the
    memoization cache are threaded through a state-and-exception monad. *)

From Stdlib Require Import String Ascii.
From stdpp Require Import base gmap strings list.

(** ** Module constants (lines 29-31) *)

Definition HEALTH_STATE_KEY : string := "healthState".
Definition INSTANCES_KEY : string := "instances".
Definition NAME_KEY : string := "name".

(** ** Exceptions *)

(** [googleapiclient.errors.HttpError]: the failure reported by the
    transport; its contents are never inspected here. *)
Record http_error := HttpErrorData { http_status : Z; http_reason : string }.

Inductive exn :=
| RuntimeError (msg : string)
| KeyError (key : string)
| ValueError (value : string)       (* of the enum constructor, for [value] *)
| HttpError (err : http_error)
| GcpApiError (err : http_error)   (* utils.GcpApiError(err) *)
| ForeignError (tag : string).     (* anything else a collaborator raises *)

(** A raised exception with its [__cause__]: [raise e] leaves the cause
    unset, [raise e from c] sets it to [c]. *)
Record raised := Raised { exc : exn; cause : option exn }.

Inductive result (A : Type) :=
| Ok (a : A)
| Raise (e : raised).
Arguments Ok {A} a.
Arguments Raise {A} e.

Definition result_bind {A B} (r : result A) (k : A -> result B) : result B :=
  match r with
  | Ok a => k a
  | Raise e => Raise e
  end.

(** ** InstanceHealthStateEnum (lines 34-47) *)

Inductive InstanceHealthStateEnum :=
| HEALTH_STATE_UNSPECIFIED
| HEALTHY
| UNHEALTHY
| AGENT_NOT_INSTALLED
| AGENT_NOT_RUNNING.

Definition enum_value (e : InstanceHealthStateEnum) : string :=
  match e with
  | HEALTH_STATE_UNSPECIFIED => "HEALTH_STATE_UNSPECIFIED"
  | HEALTHY => "HEALTHY"
  | UNHEALTHY => "UNHEALTHY"
  | AGENT_NOT_INSTALLED => "AGENT_NOT_INSTALLED"
  | AGENT_NOT_RUNNING => "AGENT_NOT_RUNNING"
  end.

(** The members in definition order. *)
Definition enum_members : list InstanceHealthStateEnum :=
  [HEALTH_STATE_UNSPECIFIED; HEALTHY; UNHEALTHY; AGENT_NOT_INSTALLED;
   AGENT_NOT_RUNNING].

(** [def __str__(self)] *)
Definition enum_str (e : InstanceHealthStateEnum) : string := enum_value e.

(** [InstanceHealthStateEnum(v)]: look the member up by value; [enum.Enum]
    raises [ValueError] when no member has that value.  The exception holds
    the rejected value; the text that [enum.Enum] formats from it with
    [repr] is not modelled. *)
Definition InstanceHealthStateEnum_call (v : string)
  : result InstanceHealthStateEnum :=
  match List.find (fun m => String.eqb (enum_value m) v) enum_members with
  | Some m => Ok m
  | None => Raise (Raised (ValueError v) None)
  end.

(** ** re.sub for the patterns of [short_path] *)

(** [re.sub(pattern, repl, s)] for a non-empty [pattern] of literal
    characters and a literal [repl]: the string is scanned from the left;
    where [pattern] matches, [repl] is emitted and the scan goes on behind
    the match, elsewhere the character is copied.  [skip] counts the
    characters of the current match that are still to be passed over. *)
Fixpoint re_sub_scan (pattern repl : string) (skip : nat) (s : string) : string :=
  match s with
  | EmptyString => EmptyString
  | String c rest =>
      match skip with
      | S k => re_sub_scan pattern repl k rest
      | O =>
          if String.prefix pattern s
          then repl +:+ re_sub_scan pattern repl (String.length pattern - 1) rest
          else String c (re_sub_scan pattern repl 0 rest)
      end
  end.

Definition re_sub (pattern repl s : string) : string :=
  re_sub_scan pattern repl 0 s.

Fixpoint string_drop (n : nat) (s : string) : string :=
  match n, s with
  | O, _ => s
  | S k, EmptyString => EmptyString
  | S k, String _ rest => string_drop k rest
  end.

(** [re.sub('^' + pattern, repl, s)]: without [re.MULTILINE] the anchor
    matches at the start of the string only, so at most one replacement. *)
Definition re_sub_anchored (pattern repl s : string) : string :=
  if String.prefix pattern s
  then repl +:+ string_drop (String.length pattern) s
  else s.

(** ** Instance (lines 50-81) *)

(** [models.Resource.__init__] stores the project id; [Instance.__init__]
    stores the record as it is. *)
Record Instance := mkInstance {
  _project_id : string;
  _resource_data : gmap string string;
}.

(** [Instance(project_id=..., resource_data=...)] (lines 58-60). *)
Definition Instance_init (project_id : string) (resource_data : gmap string string)
  : Instance :=
  mkInstance project_id resource_data.

(** [d[key]] on a dict. *)
Definition dict_getitem (d : gmap string string) (key : string) : result string :=
  match d !! key with
  | Some v => Ok v
  | None => Raise (Raised (KeyError key) None)
  end.

(** [full_path] (lines 62-68). *)
Definition full_path (self : Instance) : result string :=
  dict_getitem (_resource_data self) NAME_KEY.

(** [short_path] (lines 70-76). *)
Definition short_path (self : Instance) : result string :=
  result_bind (full_path self) (fun path =>
  let path := re_sub_anchored "projects/" "" path in
  let path := re_sub "/locations/" "/" path in
  let path := re_sub "/instances/" "/" path in
  Ok path).

(** ** The world the queries run in *)

Inductive log_level := INFO | ERROR.

Inductive log_message :=
| LogText (text : string)
| LogDict (data : gmap string string).

Record log_record := LogRecord { level : log_level; message : log_message }.

(** A call sent to the notebooks API by [query.execute]:
    [projects().locations().instances().list(parent=...)] or
    [...getInstanceHealth(name=...)], on the handle obtained with
    [apis.get_api('notebooks', 'v1', project_id)]. *)
Inductive request :=
| ListInstances (project_id parent : string) (num_retries : nat)
| GetInstanceHealth (project_id name : string) (num_retries : nat).

Record Context := mkContext { project_id : string }.

Record state := State {
  requests : list request;       (* network calls issued so far, oldest first *)
  log : list log_record;         (* records emitted through [logging] *)
  instances_cache : gmap string (gmap string Instance);
  health_cache : gmap (string * option string) InstanceHealthStateEnum;
}.

Definition add_request (q : request) (s : state) : state :=
  State (requests s ++ [q]) (log s) (instances_cache s) (health_cache s).

Definition add_log (r : log_record) (s : state) : state :=
  State (requests s) (log s ++ [r]) (instances_cache s) (health_cache s).



(** ** The monad of Python computations: state and exceptions *)

Definition M (A : Type) : Type := state -> result A * state.

#[export] Instance M_ret : MRet M := fun A (a : A) s => (Ok a, s).

#[export] Instance M_bind : MBind M := fun A B (k : A -> M B) (m : M A) s =>
  match m s with
  | (Ok a, s') => k a s'
  | (Raise e, s') => (Raise e, s')
  end.

(** [raise e] *)
Definition raise {A} (e : exn) : M A := fun s => (Raise (Raised e None), s).

(** [raise e from c] *)
Definition raise_from {A} (e c : exn) : M A := fun s => (Raise (Raised e (Some c)), s).

(** A computation that touches neither the log nor the network. *)
Definition lift {A} (r : result A) : M A := fun s => (r, s).

Definition logging_info (msg : log_message) : M unit :=
  fun s => (Ok tt, add_log (LogRecord INFO msg) s).

Definition logging_error (msg : log_message) : M unit :=
  fun s => (Ok tt, add_log (LogRecord ERROR msg) s).

(** [try: body except googleapiclient.errors.HttpError as err: handler];
    every other exception passes through. *)
Definition try_except_HttpError {A} (body : M A) (handler : http_error -> M A) : M A :=
  fun s =>
    match body s with
    | (Raise (Raised (HttpError err) _), s') => handler err s'
    | (r, s') => (r, s')
    end.

(** [name] (lines 78-81): logs the record, then reads the field. *)
Definition name (self : Instance) : M string :=
  _ ← logging_info (LogDict (_resource_data self));
  lift (dict_getitem (_resource_data self) NAME_KEY).

(** ** The queries (lines 84-139) *)

(** The collaborators of this module, none of which is defined in it. *)
Record Collaborators := {
  (** [apis.is_enabled(project_id, service_name)] *)
  is_enabled : string -> string -> bool;
  (** [config.API_RETRIES] *)
  API_RETRIES : nat;
  (** What the notebooks API answers to a request, given the requests that
      were sent before it: a decoded response or a raised exception. *)
  list_reply :
    list request -> request -> result (gmap string (list (gmap string string)));
  health_reply : list request -> request -> result (gmap string string);
}.

Section Queries.

Variable api : Collaborators.

(** [query.execute(num_retries=config.API_RETRIES)] for the two queries. *)
Definition execute_list (query : request)
  : M (gmap string (list (gmap string string))) :=
  fun s => (list_reply api (requests s) query, add_request query s).

Definition execute_health (query : request) : M (gmap string string) :=
  fun s => (health_reply api (requests s) query, add_request query s).

(** The query of lines 92-95: the handle of the project's notebooks API,
    asked for the instances of every location (["-"] is the wildcard). *)
Definition list_query (context : Context) : request :=
  ListInstances (project_id context)
    ("projects/" +:+ project_id context +:+ "/locations/-") (API_RETRIES api).

(** The query of lines 126-128; [name] is a non-empty string when the
    source gets there. *)
Definition health_query (context : Context) (name : option string) : request :=
  GetInstanceHealth (project_id context) (default "" name) (API_RETRIES api).

(** The loop of lines 100-107 over the remaining records, [instances]
    being the dict built so far. *)
Fixpoint collect_instances (context : Context)
    (records : list (gmap string string)) (instances : gmap string Instance)
  : M (gmap string Instance) :=
  match records with
  | [] => mret instances
  | resp_i :: records' =>
      if negb (bool_decide (is_Some (resp_i !! NAME_KEY)))
      then raise (RuntimeError
             "missing instance name in projects.locations.instances.list response")
      else
        let i := Instance_init (project_id context) resp_i in
        key ← lift (full_path i);
        collect_instances context records' (<[key := i]> instances)
  end.

(** The body of [get_instances] (lines 85-110). *)
Definition get_instances (context : Context) : M (gmap string Instance) :=
  let instances : gmap string Instance := ∅ in
  if negb (is_enabled api (project_id context) "notebooks")
  then mret instances
  else
    _ ← logging_info (LogText
           ("fetching list of Vertex AI Workbench notebook instances in project "
            +:+ project_id context));
    let query := list_query context in
    try_except_HttpError
      (resp ← execute_list query;
       match resp !! INSTANCES_KEY with
       | None => mret instances
       | Some records => collect_instances context records instances
       end)
      (fun err => raise_from (GcpApiError err) (HttpError err)).

(** [not name] for an argument that is a string or [None]. *)
Definition py_not (name : option string) : bool :=
  match name with
  | None => true
  | Some n => bool_decide (n = "")
  end.

(** The body of [get_instance_health_state] (lines 114-139).  The last
    line of the source is unreachable: the [try] block returns or raises. *)
Definition get_instance_health_state (context : Context) (name : option string)
  : M InstanceHealthStateEnum :=
  instance_health_state ← lift (InstanceHealthStateEnum_call "HEALTH_STATE_UNSPECIFIED");
  if negb (is_enabled api (project_id context) "notebooks")
  then
    _ ← logging_error (LogText "Notebooks API is not enabled");
    mret instance_health_state
  else if py_not name
  then
    _ ← logging_error (LogText "Instance name not provided");
    mret instance_health_state
  else
    _ ← logging_info (LogText
           ("fetching Vertex AI user-managed notebook instance health state in project "
            +:+ project_id context));
    let query := health_query context name in
    try_except_HttpError
      (resp ← execute_health query;
       match resp !! HEALTH_STATE_KEY with
       | None =>
           raise (RuntimeError
             "missing instance health state in projects.locations.instances:getInstanceHealth response")
       | Some v =>
           instance_health_state ← lift (InstanceHealthStateEnum_call v);
           mret instance_health_state
       end)
      (fun err => raise_from (GcpApiError err) (HttpError err)).

End Queries.

(** ** Memoization ([@caching.cached_api_call], lines 84 and 113) *)


Section CachedQueries.

Variable api : Collaborators.






End CachedQueries.

(** ** Vocabulary of the statements *)

(** Whether the character [c] occurs in [s]. *)
Fixpoint occurs (c : ascii) (s : string) : bool :=
  match s with
  | EmptyString => false
  | String c' rest => if Ascii.eqb c c' then true else occurs c rest
  end.

(** A path segment: a string without ["/"]. *)
Definition segment (s : string) : Prop := occurs "/" s = false.

(** The canonical resource path of an instance. *)
Definition instance_path (p l i : string) : string :=
  "projects/" +:+ p +:+ "/locations/" +:+ l +:+ "/instances/" +:+ i.

(** The [name] values of a list of records, in order; records without the
    field contribute nothing. *)
Definition record_names (records : list (gmap string string)) : list string :=
  omap (fun r : gmap string string => r !! NAME_KEY) records.

(** The records of a listing response; none when it has no instances
    collection. *)
Definition response_records (resp : gmap string (list (gmap string string)))
  : list (gmap string string) :=
  default [] (resp !! INSTANCES_KEY).

(** The dictionary obtained from [instances] by storing the named records
    of a list, in order, each under its name. *)
Definition insert_records (project : string) (records : list (gmap string string))
    (instances : gmap string Instance) : gmap string Instance :=
  fold_left
    (fun acc r =>
       match r !! NAME_KEY with
       | Some n => <[n := Instance_init project r]> acc
       | None => acc
       end)
    records instances.

(** The state after the listing call was announced in the log and sent. *)
Definition after_list_call (api : Collaborators) (context : Context) (s : state)
  : state :=
  add_request (list_query api context)
    (add_log
       (LogRecord INFO (LogText
          ("fetching list of Vertex AI Workbench notebook instances in project "
           +:+ project_id context)))
       s).

(** The state after the health call was announced in the log and sent. *)
Definition after_health_call (api : Collaborators) (context : Context)
    (name : option string) (s : state) : state :=
  add_request (health_query api context name)
    (add_log
       (LogRecord INFO (LogText
          ("fetching Vertex AI user-managed notebook instance health state in project "
           +:+ project_id context)))
       s).


(** A state in which nothing has happened yet. *)
Definition initial_state : state := State [] [] ∅ ∅.

(** A test double of the collaborators: the capability check always answers
    [enabled], the API always gives the same two answers. *)
Definition test_double (enabled : bool)
    (list_answer : result (gmap string (list (gmap string string))))
    (health_answer : result (gmap string string)) : Collaborators :=
  {| is_enabled := fun _ _ => enabled;
     API_RETRIES := 10;
     list_reply := fun _ _ => list_answer;
     health_reply := fun _ _ => health_answer |}.

(** Sample data for the test doubles. *)
Definition sample_context : Context := mkContext "p1".

Definition sample_path : string := "projects/p1/locations/l1/instances/i1".

Definition sample_record (state : string) : gmap string string :=
  {[ "name" := sample_path; "state" := state ]}.

Definition other_record : gmap string string :=
  {[ "name" := "projects/p1/locations/l2/instances/i2" ]}.

Definition nameless_record : gmap string string := {[ "state" := "ACTIVE" ]}.

Definition listing (records : list (gmap string string))
  : gmap string (list (gmap string string)) :=
  {[ "instances" := records ]}.

Definition health (v : string) : gmap string string := {[ "healthState" := v ]}.

Definition sample_http_error : http_error := HttpErrorData 403 "Forbidden".

(** * Facts about strings and [re.sub] *)

Section StringFacts.

Implicit Types (s t a pat repl : string) (c : ascii).

Lemma append_cons c s t : String c s +:+ t = String c (s +:+ t).
Proof. reflexivity. Qed.

Lemma append_empty_r s : s +:+ "" = s.
Proof.
  induction s as [|c s IH]; [reflexivity | now rewrite append_cons, IH].
Qed.

Lemma prefix_append pat s : String.prefix pat (pat +:+ s) = true.
Proof.
  induction pat as [|c pat IH]; [now destruct s |].
  rewrite append_cons. simpl.
  destruct (ascii_dec c c); [exact IH | congruence].
Qed.

Lemma prefix_inv pat s : String.prefix pat s = true -> exists t, s = pat +:+ t.
Proof.
  revert s. induction pat as [|c pat IH]; intros s Hp; simpl in *.
  - now exists s.
  - destruct s as [|c' s]; simpl in Hp; [discriminate |].
    destruct (ascii_dec c c') as [->|]; [| discriminate].
    destruct (IH _ Hp) as [t ->]. exists t. now rewrite append_cons.
Qed.

Lemma prefix_head_ne c c' pat s :
  c <> c' -> String.prefix (String c pat) (String c' s) = false.
Proof. intros Hne. simpl. destruct (ascii_dec c c'); [contradiction | reflexivity]. Qed.

Lemma occurs_append c s t : occurs c (s +:+ t) = occurs c s || occurs c t.
Proof.
  induction s as [|c' s IH]; [reflexivity |].
  rewrite append_cons. simpl.
  destruct (Ascii.eqb c c'); [reflexivity | exact IH].
Qed.

Lemma occurs_head c s : occurs c (String c s) = true.
Proof. simpl. now rewrite Ascii.eqb_refl. Qed.

Lemma string_drop_append a s : string_drop (String.length a) (a +:+ s) = s.
Proof.
  induction a as [|c a IH]; [reflexivity | rewrite append_cons; exact IH].
Qed.

(** Passing over the rest of a match. *)
Lemma re_sub_scan_skip pat repl a s :
  re_sub_scan pat repl (String.length a) (a +:+ s) = re_sub_scan pat repl 0 s.
Proof.
  induction a as [|c a IH]; [reflexivity | rewrite append_cons; exact IH].
Qed.

(** Where the pattern matches, the replacement is emitted and the scan
    resumes behind the match. *)
Lemma re_sub_match c pat repl s :
  re_sub (String c pat) repl (String c pat +:+ s)
  = repl +:+ re_sub (String c pat) repl s.
Proof.
  unfold re_sub.
  change (String c pat +:+ s) with (String c (pat +:+ s)).
  cbn [re_sub_scan].
  change (String c (pat +:+ s)) with (String c pat +:+ s).
  rewrite prefix_append.
  replace (String.length (String c pat) - 1) with (String.length pat)
    by (simpl; lia).
  now rewrite re_sub_scan_skip.
Qed.

(** Where it does not, the character is copied. *)
Lemma re_sub_copy pat repl c s :
  String.prefix pat (String c s) = false ->
  re_sub pat repl (String c s) = String c (re_sub pat repl s).
Proof. intros Hp. unfold re_sub. cbn [re_sub_scan]. now rewrite Hp. Qed.

Lemma re_sub_empty pat repl : re_sub pat repl "" = "".
Proof. reflexivity. Qed.

(** A stretch free of the pattern's first character is copied whole. *)
Lemma re_sub_copy_free c pat repl a s :
  occurs c a = false ->
  re_sub (String c pat) repl (a +:+ s) = a +:+ re_sub (String c pat) repl s.
Proof.
  induction a as [|c' a IH]; intros Hfree; [reflexivity |].
  simpl in Hfree. destruct (Ascii.eqb c c') eqn:Hc; [discriminate |].
  apply Ascii.eqb_neq in Hc.
  change (String c' a +:+ s) with (String c' (a +:+ s)).
  rewrite re_sub_copy by now apply prefix_head_ne.
  rewrite IH by assumption. reflexivity.
Qed.

Lemma re_sub_free c pat repl a :
  occurs c a = false -> re_sub (String c pat) repl a = a.
Proof.
  intros Hfree.
  pose proof (re_sub_copy_free c pat repl a "" Hfree) as H.
  rewrite re_sub_empty in H. now rewrite !append_empty_r in H.
Qed.

(** A pattern with a second occurrence of its first character does not
    match where that character is followed by a stretch free of it. *)
Lemma prefix_free c pat a :
  occurs c pat = true -> occurs c a = false ->
  String.prefix (String c pat) (String c a) = false.
Proof.
  intros Hpat Hfree.
  destruct (String.prefix (String c pat) (String c a)) eqn:Hp; [| reflexivity].
  simpl in Hp. destruct (ascii_dec c c); [| discriminate].
  destruct (prefix_inv _ _ Hp) as [t ->].
  rewrite occurs_append, Hpat in Hfree. discriminate.
Qed.

(** A string has one decomposition at its first occurrence of [c]. *)
Lemma first_occurrence_unique c a b s t :
  occurs c a = false -> occurs c b = false ->
  a +:+ String c s = b +:+ String c t -> a = b /\ s = t.
Proof.
  revert b. induction a as [|x a IH]; intros [|y b] Ha Hb Heq;
    rewrite ?append_cons in Heq; simpl in *.
  - now inversion Heq.
  - inversion Heq; subst. now rewrite Ascii.eqb_refl in Hb.
  - inversion Heq; subst. now rewrite Ascii.eqb_refl in Ha.
  - inversion Heq; subst.
    destruct (Ascii.eqb c y); [discriminate |].
    destruct (IH b Ha Hb H1) as [-> ->]. easy.
Qed.

End StringFacts.

(** * [Instance]: the accessors *)

Section ShortPath.

Variables p l i : string.
Hypothesis Hp : segment p.
Hypothesis Hl : segment l.
Hypothesis Hi : segment i.

(** First substitution: the leading label goes. *)
Lemma strip_projects :
  re_sub_anchored "projects/" "" (instance_path p l i)
  = p +:+ "/locations/" +:+ l +:+ "/instances/" +:+ i.
Proof.
  unfold re_sub_anchored, instance_path.
  now rewrite prefix_append, string_drop_append.
Qed.

Lemma re_sub_after_slash pat :
  occurs "/" pat = true -> re_sub (String "/" pat) "/" (String "/" i) = String "/" i.
Proof.
  intros Hpat.
  rewrite re_sub_copy by now apply prefix_free.
  now rewrite re_sub_free.
Qed.

(** Second substitution: the locations label becomes a slash. *)
Lemma replace_locations :
  re_sub "/locations/" "/" (p +:+ "/locations/" +:+ l +:+ "/instances/" +:+ i)
  = p +:+ "/" +:+ l +:+ "/instances/" +:+ i.
Proof.
  rewrite re_sub_copy_free by exact Hp.
  rewrite re_sub_match.
  rewrite re_sub_copy_free by exact Hl.
  change ("/instances/" +:+ i) with (String "/" ("instances" +:+ String "/" i)).
  rewrite re_sub_copy by reflexivity.
  rewrite re_sub_copy_free by reflexivity.
  now rewrite re_sub_after_slash.
Qed.

(** Third substitution: the instances label becomes a slash.  When the
    location is itself called [instances], the match starts one segment
    earlier and the result is the same. *)
Lemma replace_instances :
  re_sub "/instances/" "/" (p +:+ "/" +:+ l +:+ "/instances/" +:+ i)
  = p +:+ "/" +:+ l +:+ "/" +:+ i.
Proof.
  rewrite re_sub_copy_free by exact Hp.
  f_equal.
  change ("/" +:+ l +:+ "/instances/" +:+ i)
    with (String "/" (l +:+ "/instances/" +:+ i)).
  destruct (String.prefix "/instances/" (String "/" (l +:+ "/instances/" +:+ i)))
    eqn:Hpre.
  - simpl in Hpre.
    destruct (prefix_inv _ _ Hpre) as [t Ht].
    change (l +:+ String "/" ("instances/" +:+ i) = "instances" +:+ String "/" t)
      in Ht.
    apply first_occurrence_unique in Ht as [-> <-]; [| exact Hl | reflexivity].
    change (String "/" ("instances" +:+ "/instances/" +:+ i))
      with ("/instances/" +:+ "instances" +:+ String "/" i).
    rewrite re_sub_match.
    rewrite re_sub_copy_free by reflexivity.
    now rewrite re_sub_after_slash.
  - rewrite re_sub_copy by exact Hpre.
    rewrite re_sub_copy_free by exact Hl.
    rewrite re_sub_match.
    now rewrite re_sub_free.
Qed.

End ShortPath.

(** C7. [short_path] of an instance named
    [projects/p1/locations/l1/instances/i1] is [p1/l1/i1]; in general, for a
    name [projects/p/locations/l/instances/i] made of three segments, the
    leading [projects/] is stripped and the labels [/locations/] and
    [/instances/] are replaced by a slash, which leaves [p/l/i]. *)
Theorem short_path_strips_labels (project : string) (data : gmap string string) :
  (data !! NAME_KEY = Some "projects/p1/locations/l1/instances/i1" ->
   short_path (Instance_init project data) = Ok "p1/l1/i1")
  /\ (forall p l i : string,
        segment p -> segment l -> segment i ->
        data !! NAME_KEY = Some (instance_path p l i) ->
        short_path (Instance_init project data) = Ok (p +:+ "/" +:+ l +:+ "/" +:+ i)).
Proof.
  split.
  - intros Hname. unfold short_path, full_path, dict_getitem. simpl.
    rewrite Hname. reflexivity.
  - intros p l i Hp Hl Hi Hname.
    unfold short_path, full_path, dict_getitem. simpl.
    rewrite Hname. simpl.
    rewrite strip_projects, replace_locations, replace_instances by assumption.
    reflexivity.
Qed.

Lemma short_path_strips_labels_witness :
  short_path
    (Instance_init "p1" {[ "name" := "projects/p1/locations/l1/instances/i1" ]})
  = Ok "p1/l1/i1"
  /\ short_path (Instance_init "acme" {[ "name" := instance_path "acme" "us-west1-a" "nb" ]})
     = Ok "acme/us-west1-a/nb".
Proof.
  split.
  - apply (proj1 (short_path_strips_labels "p1"
             {[ "name" := "projects/p1/locations/l1/instances/i1" ]})).
    reflexivity.
  - apply (proj2 (short_path_strips_labels "acme"
             {[ "name" := instance_path "acme" "us-west1-a" "nb" ]})
             "acme" "us-west1-a" "nb"); reflexivity.
Defined.

(** * The enum constructor *)

Lemma enum_call_member (tag : InstanceHealthStateEnum) :
  InstanceHealthStateEnum_call (enum_value tag) = Ok tag.
Proof. now destruct tag. Qed.

Lemma enum_call_unknown (v : string) :
  (forall tag, v <> enum_value tag) ->
  InstanceHealthStateEnum_call v = Raise (Raised (ValueError v) None).
Proof.
  intros Hv. unfold InstanceHealthStateEnum_call.
  destruct (List.find _ enum_members) as [m|] eqn:Hfind; [| reflexivity].
  apply List.find_some in Hfind as [_ Heq].
  apply String.eqb_eq in Heq. now destruct (Hv m).
Qed.

Lemma enum_call_ok_inv (v : string) (tag : InstanceHealthStateEnum) :
  InstanceHealthStateEnum_call v = Ok tag -> v = enum_value tag.
Proof.
  unfold InstanceHealthStateEnum_call.
  destruct (List.find _ enum_members) as [m|] eqn:Hfind; [| discriminate].
  apply List.find_some in Hfind as [_ Heq].
  apply String.eqb_eq in Heq. congruence.
Qed.

(** * The collection loop *)

Section CollectFacts.

Variable project : string.

Implicit Types (r : gmap string string) (rs : list (gmap string string))
  (acc : gmap string Instance) (n : string).

Lemma insert_records_cons r rs acc :
  insert_records project (r :: rs) acc
  = insert_records project rs
      (match r !! NAME_KEY with
       | Some n => <[n := Instance_init project r]> acc
       | None => acc
       end).
Proof. reflexivity. Qed.

Lemma record_names_cons r rs :
  record_names (r :: rs)
  = match r !! NAME_KEY with
    | Some n => n :: record_names rs
    | None => record_names rs
    end.
Proof. reflexivity. Qed.

Lemma insert_records_named r rs acc n :
  r !! NAME_KEY = Some n ->
  insert_records project (r :: rs) acc
  = insert_records project rs (<[n := Instance_init project r]> acc).
Proof. intros Hn. now rewrite insert_records_cons, Hn. Qed.

Lemma insert_records_app rs1 rs2 acc :
  insert_records project (rs1 ++ rs2) acc
  = insert_records project rs2 (insert_records project rs1 acc).
Proof. apply fold_left_app. Qed.

Lemma dom_insert_records rs acc :
  dom (insert_records project rs acc)
  = dom acc ∪ list_to_set (record_names rs).
Proof.
  revert acc. induction rs as [|r rs IH]; intros acc.
  - simpl. now rewrite union_empty_r_L.
  - rewrite insert_records_cons, record_names_cons, IH.
    destruct (r !! NAME_KEY) as [n|]; [| reflexivity].
    rewrite dom_insert_L. simpl.
    now rewrite (union_comm_L {[n]}), <- union_assoc_L.
Qed.

(** Records with other names leave the entry of [n] alone. *)
Lemma lookup_insert_records_other rs acc n :
  Forall (fun r => r !! NAME_KEY ≠ Some n) rs ->
  insert_records project rs acc !! n = acc !! n.
Proof.
  intros Hrs. revert acc. induction Hrs as [|r rs Hr _ IH]; intros acc;
    [reflexivity |].
  rewrite insert_records_cons, IH.
  destruct (r !! NAME_KEY) as [n'|]; [| reflexivity].
  apply lookup_insert_ne. congruence.
Qed.

(** Every entry is keyed by the full path of its instance. *)
Lemma insert_records_keyed rs acc :
  (forall k inst, acc !! k = Some inst -> full_path inst = Ok k) ->
  forall k inst,
    insert_records project rs acc !! k = Some inst -> full_path inst = Ok k.
Proof.
  revert acc. induction rs as [|r rs IH]; intros acc Hacc; [exact Hacc |].
  rewrite insert_records_cons.
  destruct (r !! NAME_KEY) as [n|] eqn:Hn; [| now apply IH].
  apply IH. intros k inst. rewrite lookup_insert.
  case_decide as Hk.
  - intros [= <-]. subst k. unfold full_path, dict_getitem. simpl. now rewrite Hn.
  - apply Hacc.
Qed.

Lemma size_insert_records rs acc :
  size (insert_records project rs acc) <= size acc + length rs.
Proof.
  revert acc. induction rs as [|r rs IH]; intros acc; [simpl; lia |].
  rewrite insert_records_cons.
  destruct (r !! NAME_KEY) as [n|].
  - etransitivity; [apply IH |].
    rewrite map_size_insert. destruct (acc !! n); simpl; lia.
  - etransitivity; [apply IH | simpl; lia].
Qed.

(** A name seen before costs no new entry. *)
Lemma size_insert_records_dup rs1 r rs2 acc n :
  Exists (fun r' => r' !! NAME_KEY = Some n) rs1 ->
  r !! NAME_KEY = Some n ->
  size (insert_records project (rs1 ++ r :: rs2) acc)
  < size acc + length (rs1 ++ r :: rs2).
Proof.
  intros Hdup Hn.
  rewrite insert_records_app, (insert_records_named _ _ _ n Hn).
  assert (is_Some (insert_records project rs1 acc !! n)) as [inst Hinst].
  { apply elem_of_dom. rewrite dom_insert_records.
    apply elem_of_union_r, elem_of_list_to_set.
    apply Exists_exists in Hdup as (r' & Hin & Hr').
    unfold record_names. apply list_elem_of_omap. eauto. }
  pose proof (size_insert_records rs2
    (<[n := Instance_init project r]> (insert_records project rs1 acc))) as H2.
  rewrite map_size_insert, Hinst in H2. simpl in H2.
  pose proof (size_insert_records rs1 acc) as H1.
  rewrite length_app. simpl. lia.
Qed.

End CollectFacts.

Section LoopFacts.

Variable context : Context.

Implicit Types (rs : list (gmap string string)) (acc : gmap string Instance)
  (s : state).

(** When every record is named the loop stores them all and touches
    nothing else. *)
Lemma collect_instances_named rs acc s :
  Forall (fun r => is_Some (r !! NAME_KEY)) rs ->
  collect_instances context rs acc s
  = (Ok (insert_records (project_id context) rs acc), s).
Proof.
  intros Hrs. revert acc. induction Hrs as [|r rs [n Hn] _ IH]; intros acc;
    [reflexivity |].
  rewrite (insert_records_named _ _ _ _ n Hn). simpl.
  rewrite bool_decide_true by eauto. simpl.
  unfold mbind, M_bind, lift, full_path, dict_getitem. simpl.
  rewrite Hn. apply IH.
Qed.

(** A record without a name stops the loop, whatever was stored before. *)
Lemma collect_instances_unnamed rs acc s :
  Exists (fun r => r !! NAME_KEY = None) rs ->
  collect_instances context rs acc s
  = (Raise (Raised (RuntimeError
       "missing instance name in projects.locations.instances.list response")
       None), s).
Proof.
  revert acc. induction rs as [|r rs IH]; intros acc Hex;
    [now apply Exists_nil in Hex |].
  simpl. destruct (r !! NAME_KEY) as [n|] eqn:Hn.
  - rewrite bool_decide_true by eauto. simpl.
    unfold mbind, M_bind, lift, full_path, dict_getitem. simpl.
    rewrite Hn. apply IH.
    apply Exists_cons in Hex as [Hr|Hex]; [congruence | exact Hex].
  - rewrite bool_decide_false by (intros [? ?]; congruence). reflexivity.
Qed.

End LoopFacts.

(** * The queries *)

(** Unfolds one step of a query down to the state transformer. *)
Ltac unfold_query :=
  unfold try_except_HttpError, mbind, M_bind, mret, M_ret, lift, raise, raise_from,
    logging_info, logging_error, execute_list, execute_health;
  simpl.

Section QueryFacts.

Variable api : Collaborators.

Implicit Types (context : Context) (s : state) (name : option string).

(** The listing call returned a response whose records are all named. *)
Lemma get_instances_named context s resp :
  is_enabled api (project_id context) "notebooks" = true ->
  list_reply api (requests s) (list_query api context) = Ok resp ->
  Forall (fun r => is_Some (r !! NAME_KEY)) (response_records resp) ->
  get_instances api context s
  = (Ok (insert_records (project_id context) (response_records resp) ∅),
     after_list_call api context s).
Proof.
  intros Hen Hreply Hnamed.
  unfold get_instances. rewrite Hen. unfold_query. rewrite Hreply.
  unfold response_records in *.
  destruct (resp !! INSTANCES_KEY) as [rs|]; simpl in *; [| reflexivity].
  now rewrite collect_instances_named.
Qed.

(** C1. When every record of the listing response has a name,
    [get_instances] returns a dictionary whose keys are exactly the names
    in the response, each entry's [full_path] being its key; a response
    without an instances collection gives the empty dictionary. *)
Theorem get_instances_keys context s resp :
  is_enabled api (project_id context) "notebooks" = true ->
  list_reply api (requests s) (list_query api context) = Ok resp ->
  Forall (fun r => is_Some (r !! NAME_KEY)) (response_records resp) ->
  exists m : gmap string Instance,
    get_instances api context s = (Ok m, after_list_call api context s)
    /\ dom m = (list_to_set (record_names (response_records resp)) : gset string)
    /\ (forall k inst, m !! k = Some inst -> full_path inst = Ok k)
    /\ (resp !! INSTANCES_KEY = None -> m = ∅).
Proof.
  intros Hen Hreply Hnamed.
  eexists. split; [now apply (get_instances_named context s resp) |].
  split; [| split].
  - rewrite dom_insert_records, dom_empty_L. apply union_empty_l_L.
  - apply insert_records_keyed. intros k inst. now rewrite lookup_empty.
  - intros Hnone. unfold response_records. now rewrite Hnone.
Qed.

(** C9. When several records carry the same name, [get_instances] still
    succeeds and the entry under that name is the instance of the last of
    them; the earlier ones are overwritten, so the dictionary has fewer
    entries than the response has records. *)
Theorem get_instances_last_duplicate_wins context s resp rs1 r rs2 n :
  is_enabled api (project_id context) "notebooks" = true ->
  list_reply api (requests s) (list_query api context) = Ok resp ->
  resp !! INSTANCES_KEY = Some (rs1 ++ r :: rs2) ->
  Forall (fun r' => is_Some (r' !! NAME_KEY)) (rs1 ++ r :: rs2) ->
  r !! NAME_KEY = Some n ->
  Forall (fun r' => r' !! NAME_KEY ≠ Some n) rs2 ->
  exists m : gmap string Instance,
    get_instances api context s = (Ok m, after_list_call api context s)
    /\ m !! n = Some (Instance_init (project_id context) r)
    /\ size m <= length (rs1 ++ r :: rs2)
    /\ (Exists (fun r' => r' !! NAME_KEY = Some n) rs1 ->
        size m < length (rs1 ++ r :: rs2)).
Proof.
  intros Hen Hreply Hrs Hnamed Hn Hlast.
  assert (response_records resp = rs1 ++ r :: rs2) as Hrecords
    by (unfold response_records; now rewrite Hrs).
  eexists. split.
  { apply (get_instances_named context s resp); [exact Hen | exact Hreply |].
    now rewrite Hrecords. }
  rewrite Hrecords. split; [| split].
  - rewrite insert_records_app, (insert_records_named _ _ _ _ n Hn).
    rewrite lookup_insert_records_other by exact Hlast.
    apply lookup_insert_eq.
  - pose proof (size_insert_records (project_id context) (rs1 ++ r :: rs2) ∅) as H.
    now rewrite map_size_empty in H.
  - intros Hdup.
    pose proof (size_insert_records_dup (project_id context) rs1 r rs2 ∅ n Hdup Hn)
      as H.
    now rewrite map_size_empty in H.
Qed.

(** C2. A listing response with a record that has no name makes
    [get_instances] raise [RuntimeError]: the call returns no dictionary,
    not even one of the records before the bad one; a health response
    without [healthState] makes [get_instance_health_state] raise
    [RuntimeError] instead of returning a tag. *)
Theorem malformed_response_raises context name s :
  is_enabled api (project_id context) "notebooks" = true ->
  (forall resp,
      list_reply api (requests s) (list_query api context) = Ok resp ->
      Exists (fun r => r !! NAME_KEY = None) (response_records resp) ->
      get_instances api context s
      = (Raise (Raised (RuntimeError
           "missing instance name in projects.locations.instances.list response")
           None),
         after_list_call api context s))
  /\ (forall resp,
        py_not name = false ->
        health_reply api (requests s) (health_query api context name) = Ok resp ->
        resp !! HEALTH_STATE_KEY = None ->
        get_instance_health_state api context name s
        = (Raise (Raised (RuntimeError
             "missing instance health state in projects.locations.instances:getInstanceHealth response")
             None),
           after_health_call api context name s)).
Proof.
  intros Hen. split.
  - intros resp Hreply Hbad.
    unfold get_instances. rewrite Hen. unfold_query. rewrite Hreply.
    unfold response_records in Hbad.
    destruct (resp !! INSTANCES_KEY) as [rs|]; simpl in Hbad;
      [| now apply Exists_nil in Hbad].
    now rewrite collect_instances_unnamed.
  - intros resp Hname Hreply Hmissing.
    unfold get_instance_health_state. unfold_query.
    rewrite Hen, Hname. simpl. rewrite Hreply, Hmissing. reflexivity.
Qed.

(** The health call returned a response with a [healthState] field. *)
Lemma get_instance_health_state_response context name s resp v :
  is_enabled api (project_id context) "notebooks" = true ->
  py_not name = false ->
  health_reply api (requests s) (health_query api context name) = Ok resp ->
  resp !! HEALTH_STATE_KEY = Some v ->
  get_instance_health_state api context name s
  = (InstanceHealthStateEnum_call v, after_health_call api context name s).
Proof.
  intros Hen Hname Hreply Hv.
  unfold get_instance_health_state. unfold_query.
  rewrite Hen, Hname. simpl. rewrite Hreply, Hv.
  unfold InstanceHealthStateEnum_call.
  now destruct (List.find _ enum_members).
Qed.

(** C3. A health response whose [healthState] is the string of one of the
    five tags makes [get_instance_health_state] return that tag; any other
    string makes it raise [ValueError], so no tag is returned, neither
    [HEALTH_STATE_UNSPECIFIED] nor another default: a tag is only ever
    returned for its own string. *)
Theorem health_state_validated context name s resp v :
  is_enabled api (project_id context) "notebooks" = true ->
  py_not name = false ->
  health_reply api (requests s) (health_query api context name) = Ok resp ->
  resp !! HEALTH_STATE_KEY = Some v ->
  (forall tag, v = enum_value tag ->
     get_instance_health_state api context name s
     = (Ok tag, after_health_call api context name s))
  /\ ((forall tag, v <> enum_value tag) ->
      exists msg,
        get_instance_health_state api context name s
        = (Raise (Raised (ValueError msg) None), after_health_call api context name s))
  /\ (forall tag s',
        get_instance_health_state api context name s = (Ok tag, s') ->
        v = enum_value tag).
Proof.
  intros Hen Hname Hreply Hv.
  rewrite (get_instance_health_state_response context name s resp v)
    by assumption.
  split; [| split].
  - intros tag ->. now rewrite enum_call_member.
  - intros Hunknown. eexists. now rewrite enum_call_unknown.
  - intros tag s' [= Hcall _]. now apply enum_call_ok_inv.
Qed.

(** C4. When the notebooks API is not enabled for the project,
    [get_instances] returns the empty dictionary and
    [get_instance_health_state] returns [HEALTH_STATE_UNSPECIFIED]; neither
    raises and neither sends a request. *)
Theorem disabled_api_gives_default context name s :
  is_enabled api (project_id context) "notebooks" = false ->
  get_instances api context s = (Ok ∅, s)
  /\ get_instance_health_state api context name s
     = (Ok HEALTH_STATE_UNSPECIFIED,
        add_log (LogRecord ERROR (LogText "Notebooks API is not enabled")) s)
  /\ requests (snd (get_instances api context s)) = requests s
  /\ requests (snd (get_instance_health_state api context name s)) = requests s.
Proof.
  intros Hdis.
  assert (get_instances api context s = (Ok ∅, s)) as Hlist
    by (unfold get_instances; now rewrite Hdis).
  assert (get_instance_health_state api context name s
          = (Ok HEALTH_STATE_UNSPECIFIED,
             add_log (LogRecord ERROR (LogText "Notebooks API is not enabled")) s))
    as Hhealth
    by (unfold get_instance_health_state; unfold_query; now rewrite Hdis).
  rewrite Hlist, Hhealth. easy.
Qed.

(** C5. Called with an empty or absent instance identifier,
    [get_instance_health_state] returns [HEALTH_STATE_UNSPECIFIED], sends
    no request, and logs one record at error level that gives the reason:
    the API is not enabled, or else the name was not provided. *)
Theorem missing_name_gives_default context name s :
  name = None \/ name = Some "" ->
  let reason :=
    if is_enabled api (project_id context) "notebooks"
    then "Instance name not provided"
    else "Notebooks API is not enabled" in
  get_instance_health_state api context name s
  = (Ok HEALTH_STATE_UNSPECIFIED, add_log (LogRecord ERROR (LogText reason)) s)
  /\ requests (snd (get_instance_health_state api context name s)) = requests s.
Proof.
  intros Hname reason.
  assert (py_not name = true) as Hnot by (destruct Hname; now subst).
  assert (get_instance_health_state api context name s
          = (Ok HEALTH_STATE_UNSPECIFIED,
             add_log (LogRecord ERROR (LogText reason)) s)) as Hrun.
  { unfold get_instance_health_state, reason. unfold_query.
    destruct (is_enabled api (project_id context) "notebooks"); simpl;
      [now rewrite Hnot | reflexivity]. }
  rewrite Hrun. easy.
Qed.

(** C6. An [HttpError] raised while the listing call or the health call
    executes is raised again as [GcpApiError] built from it and with it as
    the cause; it reaches the caller, no default is returned. *)
Theorem http_error_wrapped context name s err c :
  is_enabled api (project_id context) "notebooks" = true ->
  (list_reply api (requests s) (list_query api context)
   = Raise (Raised (HttpError err) c) ->
   get_instances api context s
   = (Raise (Raised (GcpApiError err) (Some (HttpError err))),
      after_list_call api context s))
  /\ (py_not name = false ->
      health_reply api (requests s) (health_query api context name)
      = Raise (Raised (HttpError err) c) ->
      get_instance_health_state api context name s
      = (Raise (Raised (GcpApiError err) (Some (HttpError err))),
         after_health_call api context name s)).
Proof.
  intros Hen. split.
  - intros Hreply. unfold get_instances. rewrite Hen. unfold_query.
    now rewrite Hreply.
  - intros Hname Hreply. unfold get_instance_health_state. unfold_query.
    rewrite Hen, Hname. simpl. now rewrite Hreply.
Qed.

End QueryFacts.

(** * Memoization *)

Section CacheFacts.

Variable api : Collaborators.

Implicit Types (context : Context) (s : state) (name : option string).












End CacheFacts.

(** * Construction and the accessors *)

(** C10. An [Instance] is constructed from any record, named or not: the
    constructor stores the record and checks nothing.  On an instance built
    from a record without [name], reading [full_path] raises [KeyError], and
    reading [name] logs the record and raises [KeyError]. *)
Theorem accessors_need_name (project : string) (data : gmap string string) :
  data !! NAME_KEY = None ->
  exists inst,
    Instance_init project data = inst
    /\ _resource_data inst = data
    /\ _project_id inst = project
    /\ full_path inst = Raise (Raised (KeyError NAME_KEY) None)
    /\ forall s,
         name inst s
         = (Raise (Raised (KeyError NAME_KEY) None),
            add_log (LogRecord INFO (LogDict data)) s).
Proof.
  intros Hmissing. eexists. split; [reflexivity |].
  repeat split.
  - unfold full_path, dict_getitem. simpl. now rewrite Hmissing.
  - intros s. unfold name. unfold_query. unfold dict_getitem. now rewrite Hmissing.
Qed.

(** With the field present both accessors return it. *)
Lemma accessors_with_name (project : string) (data : gmap string string) (v : string) :
  data !! NAME_KEY = Some v ->
  full_path (Instance_init project data) = Ok v
  /\ forall s,
       name (Instance_init project data) s
       = (Ok v, add_log (LogRecord INFO (LogDict data)) s).
Proof.
  intros Hv. split.
  - unfold full_path, dict_getitem. simpl. now rewrite Hv.
  - intros s. unfold name. unfold_query. unfold dict_getitem. now rewrite Hv.
Qed.

Lemma accessors_need_name_witness :
  exists inst,
    Instance_init "p1" nameless_record = inst
    /\ _resource_data inst = nameless_record
    /\ _project_id inst = "p1"
    /\ full_path inst = Raise (Raised (KeyError NAME_KEY) None)
    /\ forall s,
         name inst s
         = (Raise (Raised (KeyError NAME_KEY) None),
            add_log (LogRecord INFO (LogDict nameless_record)) s).
Proof. apply (accessors_need_name "p1" nameless_record). reflexivity. Defined.

(** * The theorems on test doubles *)

Lemma get_instances_keys_witness :
  let api :=
    test_double true (Ok (listing [sample_record "ACTIVE"; other_record])) (Ok ∅) in
  exists m : gmap string Instance,
    get_instances api sample_context initial_state
    = (Ok m, after_list_call api sample_context initial_state)
    /\ dom m
       = (list_to_set
            (record_names
               (response_records (listing [sample_record "ACTIVE"; other_record])))
          : gset string)
    /\ (forall k inst, m !! k = Some inst -> full_path inst = Ok k)
    /\ (listing [sample_record "ACTIVE"; other_record] !! INSTANCES_KEY = None ->
        m = ∅).
Proof.
  intros api.
  apply (get_instances_keys api sample_context initial_state
           (listing [sample_record "ACTIVE"; other_record])).
  - reflexivity.
  - reflexivity.
  - vm_compute. repeat (constructor; [eexists; reflexivity |]). constructor.
Defined.

Lemma get_instances_last_duplicate_wins_witness :
  let records := [sample_record "PROVISIONING"; other_record; sample_record "ACTIVE"] in
  let api := test_double true (Ok (listing records)) (Ok ∅) in
  exists m : gmap string Instance,
    get_instances api sample_context initial_state
    = (Ok m, after_list_call api sample_context initial_state)
    /\ m !! sample_path = Some (Instance_init "p1" (sample_record "ACTIVE"))
    /\ size m <= 3
    /\ (Exists (fun r' => r' !! NAME_KEY = Some sample_path)
          [sample_record "PROVISIONING"; other_record] ->
        size m < 3).
Proof.
  intros records api.
  apply (get_instances_last_duplicate_wins api sample_context initial_state
           (listing records)
           [sample_record "PROVISIONING"; other_record] (sample_record "ACTIVE") []
           sample_path).
  - reflexivity.
  - reflexivity.
  - reflexivity.
  - vm_compute. repeat (constructor; [eexists; reflexivity |]). constructor.
  - reflexivity.
  - constructor.
Defined.

Lemma malformed_response_raises_witness :
  let api :=
    test_double true (Ok (listing [other_record; nameless_record]))
      (Ok {[ "name" := sample_path ]}) in
  get_instances api sample_context initial_state
  = (Raise (Raised (RuntimeError
       "missing instance name in projects.locations.instances.list response")
       None),
     after_list_call api sample_context initial_state)
  /\ get_instance_health_state api sample_context (Some sample_path) initial_state
     = (Raise (Raised (RuntimeError
          "missing instance health state in projects.locations.instances:getInstanceHealth response")
          None),
        after_health_call api sample_context (Some sample_path) initial_state).
Proof.
  intros api.
  destruct (malformed_response_raises api sample_context (Some sample_path)
              initial_state eq_refl) as [Hlist Hhealth].
  split.
  - apply (Hlist (listing [other_record; nameless_record])); [reflexivity |].
    vm_compute. apply Exists_cons_tl, Exists_cons_hd. reflexivity.
  - apply (Hhealth {[ "name" := sample_path ]}); reflexivity.
Defined.

Lemma health_state_validated_witness :
  get_instance_health_state (test_double true (Ok ∅) (Ok (health "HEALTHY")))
    sample_context (Some sample_path) initial_state
  = (Ok HEALTHY,
     after_health_call (test_double true (Ok ∅) (Ok (health "HEALTHY")))
       sample_context (Some sample_path) initial_state)
  /\ exists msg,
       get_instance_health_state (test_double true (Ok ∅) (Ok (health "FOO")))
         sample_context (Some sample_path) initial_state
       = (Raise (Raised (ValueError msg) None),
          after_health_call (test_double true (Ok ∅) (Ok (health "FOO")))
            sample_context (Some sample_path) initial_state).
Proof.
  split.
  - apply (proj1 (health_state_validated
                    (test_double true (Ok ∅) (Ok (health "HEALTHY")))
                    sample_context (Some sample_path) initial_state
                    (health "HEALTHY") "HEALTHY" eq_refl eq_refl eq_refl eq_refl)
             HEALTHY).
    reflexivity.
  - apply (proj1 (proj2 (health_state_validated
                    (test_double true (Ok ∅) (Ok (health "FOO")))
                    sample_context (Some sample_path) initial_state
                    (health "FOO") "FOO" eq_refl eq_refl eq_refl eq_refl))).
    intros []; discriminate.
Defined.

Lemma disabled_api_gives_default_witness :
  let api :=
    test_double false (Ok (listing [other_record])) (Ok (health "HEALTHY")) in
  get_instances api sample_context initial_state = (Ok ∅, initial_state)
  /\ get_instance_health_state api sample_context (Some sample_path) initial_state
     = (Ok HEALTH_STATE_UNSPECIFIED,
        add_log (LogRecord ERROR (LogText "Notebooks API is not enabled")) initial_state)
  /\ requests (snd (get_instances api sample_context initial_state)) = []
  /\ requests
       (snd (get_instance_health_state api sample_context (Some sample_path)
               initial_state))
     = [].
Proof.
  intros api.
  apply (disabled_api_gives_default api sample_context (Some sample_path)
           initial_state).
  reflexivity.
Defined.

Lemma missing_name_gives_default_witness :
  let api := test_double true (Ok ∅) (Ok (health "HEALTHY")) in
  (get_instance_health_state api sample_context (Some "") initial_state
   = (Ok HEALTH_STATE_UNSPECIFIED,
      add_log (LogRecord ERROR (LogText "Instance name not provided")) initial_state)
   /\ requests (snd (get_instance_health_state api sample_context (Some "")
                       initial_state))
      = [])
  /\ (get_instance_health_state api sample_context None initial_state
      = (Ok HEALTH_STATE_UNSPECIFIED,
         add_log (LogRecord ERROR (LogText "Instance name not provided")) initial_state)
      /\ requests (snd (get_instance_health_state api sample_context None
                          initial_state))
         = []).
Proof.
  intros api. split.
  - apply (missing_name_gives_default api sample_context (Some "") initial_state).
    right. reflexivity.
  - apply (missing_name_gives_default api sample_context None initial_state).
    left. reflexivity.
Defined.

Lemma http_error_wrapped_witness :
  let api :=
    test_double true (Raise (Raised (HttpError sample_http_error) None))
      (Raise (Raised (HttpError sample_http_error) None)) in
  get_instances api sample_context initial_state
  = (Raise (Raised (GcpApiError sample_http_error)
              (Some (HttpError sample_http_error))),
     after_list_call api sample_context initial_state)
  /\ get_instance_health_state api sample_context (Some sample_path) initial_state
     = (Raise (Raised (GcpApiError sample_http_error)
                 (Some (HttpError sample_http_error))),
        after_health_call api sample_context (Some sample_path) initial_state).
Proof.
  intros api.
  destruct (http_error_wrapped api sample_context (Some sample_path) initial_state
              sample_http_error None eq_refl) as [Hlist Hhealth].
  split; [apply Hlist | apply Hhealth]; reflexivity.
Defined.



(** * Further properties of [Instance] and the enum *)

(** The enum constructor and [__str__] are inverse to each other: a string
    constructs a tag exactly when it is the string of that tag. *)
Theorem enum_str_round_trip (v : string) (tag : InstanceHealthStateEnum) :
  InstanceHealthStateEnum_call v = Ok tag <-> enum_str tag = v.
Proof.
  unfold enum_str. split.
  - intros Hcall. symmetry. now apply enum_call_ok_inv.
  - intros <-. apply enum_call_member.
Qed.

Lemma enum_str_round_trip_witness :
  InstanceHealthStateEnum_call "AGENT_NOT_RUNNING" = Ok AGENT_NOT_RUNNING.
Proof. apply (enum_str_round_trip "AGENT_NOT_RUNNING" AGENT_NOT_RUNNING). reflexivity. Defined.

Section SubstitutionLength.

Implicit Types (s pat repl : string).

Lemma length_append' s t : String.length (s +:+ t) = String.length s + String.length t.
Proof.
  induction s as [|c s IH]; [reflexivity |].
  rewrite append_cons. simpl. now rewrite IH.
Qed.

Lemma prefix_length pat s :
  String.prefix pat s = true -> String.length pat <= String.length s.
Proof.
  intros Hp. destruct (prefix_inv _ _ Hp) as [t ->].
  rewrite length_append'. lia.
Qed.

Lemma string_drop_length n s :
  String.length (string_drop n s) = String.length s - n.
Proof.
  revert s. induction n as [|n IH]; intros [|c s]; simpl; try reflexivity.
  apply IH.
Qed.

(** A replacement no longer than the pattern never lengthens the string. *)
Lemma re_sub_scan_length pat repl skip s :
  String.length repl <= String.length pat ->
  String.length (re_sub_scan pat repl skip s) <= String.length s - skip.
Proof.
  intros Hrepl. revert skip. induction s as [|c s IH]; intros skip; [simpl; lia |].
  destruct skip as [|k]; cbn [re_sub_scan]; [| apply IH].
  destruct (String.prefix pat (String c s)) eqn:Hp.
  - apply prefix_length in Hp. simpl in Hp.
    rewrite length_append'.
    specialize (IH (String.length pat - 1)). simpl. lia.
  - specialize (IH 0). simpl. lia.
Qed.

Lemma re_sub_length pat repl s :
  String.length repl <= String.length pat ->
  String.length (re_sub pat repl s) <= String.length s.
Proof.
  intros Hrepl. pose proof (re_sub_scan_length pat repl 0 s Hrepl). unfold re_sub. lia.
Qed.

Lemma re_sub_anchored_length pat repl s :
  String.length repl <= String.length pat ->
  String.length (re_sub_anchored pat repl s) <= String.length s.
Proof.
  intros Hrepl. unfold re_sub_anchored.
  destruct (String.prefix pat s) eqn:Hp; [| lia].
  apply prefix_length in Hp.
  rewrite length_append', string_drop_length. lia.
Qed.

End SubstitutionLength.

(** [short_path] fails exactly as [full_path] does: on a record without
    [name] it raises the same [KeyError]; on any record with a name it
    returns a string, whatever the name looks like, and that string is never
    longer than the name. *)
Theorem short_path_follows_full_path (self : Instance) :
  (forall e, full_path self = Raise e -> short_path self = Raise e)
  /\ (forall path,
        full_path self = Ok path ->
        exists short,
          short_path self = Ok short
          /\ String.length short <= String.length path).
Proof.
  unfold short_path. split.
  - intros e ->. reflexivity.
  - intros path ->. simpl. eexists. split; [reflexivity |].
    etransitivity; [apply re_sub_length; simpl; lia |].
    etransitivity; [apply re_sub_length; simpl; lia |].
    apply re_sub_anchored_length. simpl. lia.
Qed.

Lemma short_path_follows_full_path_witness :
  short_path (Instance_init "p1" nameless_record)
  = Raise (Raised (KeyError NAME_KEY) None)
  /\ exists short,
       short_path (Instance_init "p1" (sample_record "ACTIVE")) = Ok short
       /\ String.length short <= String.length sample_path.
Proof.
  split.
  - apply (proj1 (short_path_follows_full_path (Instance_init "p1" nameless_record))).
    reflexivity.
  - apply (proj2 (short_path_follows_full_path
                    (Instance_init "p1" (sample_record "ACTIVE")))).
    reflexivity.
Defined.

(** A name without any slash carries none of the three labels, and
    [short_path] returns it unchanged. *)
Theorem short_path_without_slash (project : string) (data : gmap string string)
    (path : string) :
  data !! NAME_KEY = Some path ->
  segment path ->
  short_path (Instance_init project data) = Ok path.
Proof.
  intros Hname Hfree.
  unfold short_path, full_path, dict_getitem. simpl. rewrite Hname. simpl.
  assert (re_sub_anchored "projects/" "" path = path) as ->.
  { unfold re_sub_anchored.
    destruct (String.prefix "projects/" path) eqn:Hp; [| reflexivity].
    destruct (prefix_inv _ _ Hp) as [t ->].
    unfold segment in Hfree. rewrite occurs_append in Hfree. discriminate. }
  rewrite (re_sub_free "/" "locations/" "/" path) by exact Hfree.
  now rewrite re_sub_free by exact Hfree.
Qed.

Lemma short_path_without_slash_witness :
  short_path (Instance_init "p1" {[ "name" := "projects" ]}) = Ok "projects".
Proof.
  apply (short_path_without_slash "p1" {[ "name" := "projects" ]} "projects");
    reflexivity.
Defined.

(** Reading [name] gives what [full_path] gives, value or exception, and
    each read appends one INFO record holding the whole record to the log;
    it sends no request and leaves the rest of the state alone. *)
Theorem name_is_full_path_logged (self : Instance) (s : state) :
  name self s
  = (full_path self, add_log (LogRecord INFO (LogDict (_resource_data self))) s)
  /\ requests (snd (name self s)) = requests s
  /\ log (snd (name self s))
     = log s ++ [LogRecord INFO (LogDict (_resource_data self))].
Proof.
  assert (name self s
          = (full_path self,
             add_log (LogRecord INFO (LogDict (_resource_data self))) s)) as Hname.
  { unfold name, full_path. unfold_query.
    now destruct (dict_getitem (_resource_data self) NAME_KEY). }
  rewrite Hname. easy.
Qed.

(** * Further properties of the queries *)

Section QueryEffects.

Variable api : Collaborators.

Implicit Types (context : Context) (s : state) (name : option string).

(** The loop either stores every record or stops at a nameless one; it
    raises nothing else. *)
Lemma collect_instances_outcome context rs acc s :
  collect_instances context rs acc s
  = (Ok (insert_records (project_id context) rs acc), s)
  \/ collect_instances context rs acc s
     = (Raise (Raised (RuntimeError
          "missing instance name in projects.locations.instances.list response")
          None), s).
Proof.
  destruct (Forall_Exists_dec (fun r : gmap string string => is_Some (r !! NAME_KEY))
              (fun r => r !! NAME_KEY = None)
              (fun r => match r !! NAME_KEY as o
                          return {is_Some o} + {o = None} with
                        | Some n => left (ex_intro _ n eq_refl)
                        | None => right eq_refl
                        end) rs) as [Hnamed|Hbad].
  - left. now apply collect_instances_named.
  - right. now apply collect_instances_unnamed.
Qed.

(** Whatever the API answers, [get_instances] logs one INFO record and sends
    exactly one request when the API is enabled, the listing of all
    locations with the configured retry count, and does nothing at all when
    it is not. *)
Theorem get_instances_effects context s :
  snd (get_instances api context s)
  = (if is_enabled api (project_id context) "notebooks"
     then after_list_call api context s
     else s)
  /\ requests (snd (get_instances api context s))
     = (if is_enabled api (project_id context) "notebooks"
        then requests s
             ++ [ListInstances (project_id context)
                   ("projects/" +:+ project_id context +:+ "/locations/-")
                   (API_RETRIES api)]
        else requests s).
Proof.
  assert (snd (get_instances api context s)
          = (if is_enabled api (project_id context) "notebooks"
             then after_list_call api context s
             else s)) as Hstate.
  { unfold get_instances.
    destruct (is_enabled api (project_id context) "notebooks"); [| reflexivity].
    unfold_query.
    destruct (list_reply api (requests s) (list_query api context))
      as [resp|[[] c]]; try reflexivity.
    destruct (resp !! INSTANCES_KEY) as [rs|]; [| reflexivity].
    match goal with
    | |- context [collect_instances context rs ∅ ?s1] =>
        destruct (collect_instances_outcome context rs ∅ s1) as [-> | ->]
    end; reflexivity. }
  split; [exact Hstate |].
  rewrite Hstate.
  now destruct (is_enabled api (project_id context) "notebooks").
Qed.

(** Whatever the API answers, [get_instance_health_state] sends exactly one
    request, for the given name, when the API is enabled and the name is
    not empty; otherwise it sends none and logs one ERROR record. *)
Theorem get_instance_health_state_effects context name s :
  snd (get_instance_health_state api context name s)
  = (if is_enabled api (project_id context) "notebooks"
     then if py_not name
          then add_log (LogRecord ERROR (LogText "Instance name not provided")) s
          else after_health_call api context name s
     else add_log (LogRecord ERROR (LogText "Notebooks API is not enabled")) s)
  /\ requests (snd (get_instance_health_state api context name s))
     = (if is_enabled api (project_id context) "notebooks" && negb (py_not name)
        then requests s
             ++ [GetInstanceHealth (project_id context) (default "" name)
                   (API_RETRIES api)]
        else requests s).
Proof.
  assert (snd (get_instance_health_state api context name s)
          = (if is_enabled api (project_id context) "notebooks"
             then if py_not name
                  then add_log (LogRecord ERROR (LogText "Instance name not provided")) s
                  else after_health_call api context name s
             else add_log (LogRecord ERROR (LogText "Notebooks API is not enabled")) s))
    as Hstate.
  { unfold get_instance_health_state. unfold_query.
    destruct (is_enabled api (project_id context) "notebooks"); [| reflexivity].
    simpl. destruct (py_not name); [reflexivity |]. simpl.
    destruct (health_reply api (requests s) (health_query api context name))
      as [resp|[[] c]]; try reflexivity.
    destruct (resp !! HEALTH_STATE_KEY) as [v|]; [| reflexivity].
    unfold InstanceHealthStateEnum_call.
    now destruct (List.find _ enum_members). }
  split; [exact Hstate |].
  rewrite Hstate.
  destruct (is_enabled api (project_id context) "notebooks"); [| reflexivity].
  now destruct (py_not name).
Qed.

(** An exception of the API that is not an [HttpError] is not wrapped: it
    leaves both queries as it was raised. *)
Theorem foreign_error_passes context name s e :
  is_enabled api (project_id context) "notebooks" = true ->
  (forall err, exc e <> HttpError err) ->
  (list_reply api (requests s) (list_query api context) = Raise e ->
   get_instances api context s = (Raise e, after_list_call api context s))
  /\ (py_not name = false ->
      health_reply api (requests s) (health_query api context name) = Raise e ->
      get_instance_health_state api context name s
      = (Raise e, after_health_call api context name s)).
Proof.
  intros Hen Hforeign. split.
  - intros Hreply. unfold get_instances. rewrite Hen. unfold_query. rewrite Hreply.
    destruct e as [[] c]; try reflexivity. now destruct (Hforeign err).
  - intros Hname Hreply. unfold get_instance_health_state. unfold_query.
    rewrite Hen, Hname. simpl. rewrite Hreply.
    destruct e as [[] c]; try reflexivity. now destruct (Hforeign err).
Qed.

(** How [get_instances] can end: with a dictionary; with the
    [RuntimeError] of a nameless record; with the [GcpApiError] that wraps
    an [HttpError] of the API; or with another exception of the API, as it
    was raised.  In particular no bare [HttpError] ever leaves it. *)
Theorem get_instances_outcomes context s :
  let out := fst (get_instances api context s) in
  ((exists m, out = Ok m)
   \/ out = Raise (Raised (RuntimeError
              "missing instance name in projects.locations.instances.list response")
              None)
   \/ (exists err c,
         list_reply api (requests s) (list_query api context)
         = Raise (Raised (HttpError err) c)
         /\ out = Raise (Raised (GcpApiError err) (Some (HttpError err))))
   \/ (exists e,
         list_reply api (requests s) (list_query api context) = Raise e
         /\ (forall err, exc e <> HttpError err)
         /\ out = Raise e))
  /\ (forall err c, out <> Raise (Raised (HttpError err) c)).
Proof.
  unfold get_instances.
  destruct (is_enabled api (project_id context) "notebooks"); simpl;
    [| split; [left; eauto | discriminate]].
  unfold_query.
  destruct (list_reply api (requests s) (list_query api context))
    as [resp|[[] c]] eqn:Hreply; simpl;
    try (split; [do 3 right; eexists; repeat split; discriminate | discriminate]).
  - destruct (resp !! INSTANCES_KEY) as [rs|]; simpl;
      [| split; [left; eauto | discriminate]].
    match goal with
    | |- context [collect_instances context rs ∅ ?s1] =>
        destruct (collect_instances_outcome context rs ∅ s1) as [-> | ->]
    end; simpl; (split; [eauto | discriminate]).
  - split; [| discriminate]. right. right. left. eauto.
Qed.

(** How [get_instance_health_state] can end: with a tag; with the
    [RuntimeError] of a response without [healthState]; with the
    [ValueError] of the enum constructor; with the [GcpApiError] that wraps
    an [HttpError] of the API; or with another exception of the API, as it
    was raised.  No bare [HttpError] ever leaves it. *)
Theorem get_instance_health_state_outcomes context name s :
  let out := fst (get_instance_health_state api context name s) in
  ((exists tag, out = Ok tag)
   \/ out = Raise (Raised (RuntimeError
              "missing instance health state in projects.locations.instances:getInstanceHealth response")
              None)
   \/ (exists msg, out = Raise (Raised (ValueError msg) None))
   \/ (exists err c,
         health_reply api (requests s) (health_query api context name)
         = Raise (Raised (HttpError err) c)
         /\ out = Raise (Raised (GcpApiError err) (Some (HttpError err))))
   \/ (exists e,
         health_reply api (requests s) (health_query api context name) = Raise e
         /\ (forall err, exc e <> HttpError err)
         /\ out = Raise e))
  /\ (forall err c, out <> Raise (Raised (HttpError err) c)).
Proof.
  unfold get_instance_health_state. unfold_query.
  destruct (is_enabled api (project_id context) "notebooks"); simpl;
    [| split; [left; eauto | discriminate]].
  destruct (py_not name); simpl; [split; [left; eauto | discriminate] |].
  destruct (health_reply api (requests s) (health_query api context name))
    as [resp|[[] c]] eqn:Hreply; simpl;
    try (split; [do 4 right; eexists; repeat split; discriminate | discriminate]).
  - destruct (resp !! HEALTH_STATE_KEY) as [v|]; simpl;
      [| split; [eauto | discriminate]].
    unfold InstanceHealthStateEnum_call.
    destruct (List.find _ enum_members); simpl; (split; [| discriminate]).
    + left. eauto.
    + right. right. left. eauto.
  - split; [| discriminate]. do 3 right. left. eauto.
Qed.

End QueryEffects.

Lemma foreign_error_passes_witness :
  let failure := Raised (ForeignError "socket.timeout") None in
  let api := test_double true (Raise failure) (Raise failure) in
  get_instances api sample_context initial_state
  = (Raise failure, after_list_call api sample_context initial_state)
  /\ get_instance_health_state api sample_context (Some sample_path) initial_state
     = (Raise failure,
        after_health_call api sample_context (Some sample_path) initial_state).
Proof.
  intros failure api.
  destruct (foreign_error_passes api sample_context (Some sample_path)
              initial_state failure eq_refl) as [Hlist Hhealth];
    [discriminate |].
  split; [apply Hlist | apply Hhealth]; reflexivity.
Defined.

(** * The dictionary and the records it was built from *)

Section Provenance.

Variable project : string.

Implicit Types (r : gmap string string) (rs : list (gmap string string))
  (acc : gmap string Instance) (k : string) (inst : Instance).

(** An entry was there before or wraps a record of the list that carries
    the key as its name. *)
Lemma insert_records_provenance rs acc k inst :
  insert_records project rs acc !! k = Some inst ->
  acc !! k = Some inst
  \/ exists r, r ∈ rs /\ r !! NAME_KEY = Some k /\ inst = Instance_init project r.
Proof.
  revert acc. induction rs as [|r rs IH]; intros acc Hk; [now left |].
  rewrite insert_records_cons in Hk.
  destruct (IH _ Hk) as [Hacc|(r' & Hin & Hr' & ->)].
  - destruct (r !! NAME_KEY) as [n|] eqn:Hn; [| now left].
    rewrite lookup_insert in Hacc. case_decide as Hnk.
    + injection Hacc as <-. subst n. right. exists r. split; [left | easy].
    + now left.
  - right. exists r'. split; [now right | easy].
Qed.

Lemma record_names_app rs1 rs2 :
  record_names (rs1 ++ rs2) = record_names rs1 ++ record_names rs2.
Proof. apply omap_app. Qed.

Lemma record_names_length rs :
  Forall (fun r => is_Some (r !! NAME_KEY)) rs ->
  length (record_names rs) = length rs.
Proof.
  induction 1 as [|r rs [n Hn] _ IH]; [reflexivity |].
  rewrite record_names_cons, Hn. simpl. now rewrite IH.
Qed.

(** With distinct names every record is found under its name. *)
Lemma insert_records_retrieve rs acc r k :
  NoDup (record_names rs) ->
  r ∈ rs -> r !! NAME_KEY = Some k ->
  insert_records project rs acc !! k = Some (Instance_init project r).
Proof.
  intros Hnodup Hin Hk.
  apply list_elem_of_split in Hin as (rs1 & rs2 & ->).
  rewrite record_names_app, record_names_cons, Hk in Hnodup.
  apply NoDup_app in Hnodup as (_ & _ & Hnodup).
  apply NoDup_cons in Hnodup as [Hfresh _].
  rewrite insert_records_app, (insert_records_named _ _ _ _ k Hk).
  rewrite lookup_insert_records_other; [apply lookup_insert_eq |].
  apply Forall_forall. intros r' Hin' Hr'. apply Hfresh.
  unfold record_names. apply list_elem_of_omap. eauto.
Qed.

(** With distinct names the dictionary does not depend on the order of the
    records. *)
Lemma insert_records_Permutation rs1 rs2 :
  rs1 ≡ₚ rs2 ->
  NoDup (record_names rs1) ->
  insert_records project rs1 ∅ = insert_records project rs2 ∅.
Proof.
  intros Hperm Hnodup1.
  assert (NoDup (record_names rs2)) as Hnodup2.
  { unfold record_names in *. now rewrite <- Hperm. }
  apply map_eq. intros k. apply option_eq. intros inst. split; intros Hk.
  - apply insert_records_provenance in Hk as [Hk|(r & Hin & Hr & ->)];
      [now rewrite lookup_empty in Hk |].
    apply insert_records_retrieve; [assumption | now rewrite <- Hperm | assumption].
  - apply insert_records_provenance in Hk as [Hk|(r & Hin & Hr & ->)];
      [now rewrite lookup_empty in Hk |].
    apply insert_records_retrieve; [assumption | now rewrite Hperm | assumption].
Qed.

End Provenance.

Section Dictionary.

Variable api : Collaborators.

Implicit Types (context : Context) (s : state).

(** The listing call returned a response with a nameless record. *)
Lemma get_instances_unnamed context s resp :
  is_enabled api (project_id context) "notebooks" = true ->
  list_reply api (requests s) (list_query api context) = Ok resp ->
  Exists (fun r => r !! NAME_KEY = None) (response_records resp) ->
  get_instances api context s
  = (Raise (Raised (RuntimeError
       "missing instance name in projects.locations.instances.list response")
       None),
     after_list_call api context s).
Proof.
  intros Hen Hreply Hbad.
  unfold get_instances. rewrite Hen. unfold_query. rewrite Hreply.
  unfold response_records in Hbad.
  destruct (resp !! INSTANCES_KEY) as [rs|]; simpl in Hbad;
    [| now apply Exists_nil in Hbad].
  now rewrite collect_instances_unnamed.
Qed.

(** When [get_instances] returns a dictionary, every record of the response
    had a name, and every entry is an instance of the context's project that
    wraps, unchanged, a record of the response whose name is the key: no
    entry is made up. *)
Theorem get_instances_entries context s resp m s' :
  is_enabled api (project_id context) "notebooks" = true ->
  list_reply api (requests s) (list_query api context) = Ok resp ->
  get_instances api context s = (Ok m, s') ->
  Forall (fun r => is_Some (r !! NAME_KEY)) (response_records resp)
  /\ (forall k inst,
        m !! k = Some inst ->
        _project_id inst = project_id context
        /\ _resource_data inst ∈ response_records resp
        /\ _resource_data inst !! NAME_KEY = Some k).
Proof.
  intros Hen Hreply Hrun.
  destruct (Forall_Exists_dec (fun r : gmap string string => is_Some (r !! NAME_KEY))
              (fun r => r !! NAME_KEY = None)
              (fun r => match r !! NAME_KEY as o
                          return {is_Some o} + {o = None} with
                        | Some n => left (ex_intro _ n eq_refl)
                        | None => right eq_refl
                        end) (response_records resp)) as [Hnamed|Hbad].
  - split; [exact Hnamed |].
    rewrite (get_instances_named api context s resp Hen Hreply Hnamed) in Hrun.
    injection Hrun as <- _. intros k inst Hk.
    apply insert_records_provenance in Hk as [Hk|(r & Hin & Hr & ->)];
      [now rewrite lookup_empty in Hk | easy].
  - rewrite (get_instances_unnamed context s resp Hen Hreply Hbad) in Hrun.
    discriminate.
Qed.

(** When the names in the response are distinct, the dictionary has one
    entry per record and every record is found under its name. *)
Theorem get_instances_distinct_names context s resp :
  is_enabled api (project_id context) "notebooks" = true ->
  list_reply api (requests s) (list_query api context) = Ok resp ->
  Forall (fun r => is_Some (r !! NAME_KEY)) (response_records resp) ->
  NoDup (record_names (response_records resp)) ->
  exists m : gmap string Instance,
    get_instances api context s = (Ok m, after_list_call api context s)
    /\ size m = length (response_records resp)
    /\ (forall r,
          r ∈ response_records resp ->
          exists k,
            r !! NAME_KEY = Some k
            /\ m !! k = Some (Instance_init (project_id context) r)).
Proof.
  intros Hen Hreply Hnamed Hnodup.
  eexists. split; [now apply (get_instances_named api context s resp) |]. split.
  - rewrite <- (size_dom (D := gset string)).
    rewrite dom_insert_records, dom_empty_L, union_empty_l_L.
    rewrite size_list_to_set by exact Hnodup.
    now apply record_names_length.
  - intros r Hin.
    destruct (proj1 (Forall_forall _ _) Hnamed r Hin) as [k Hk].
    exists k. split; [exact Hk |]. now apply insert_records_retrieve.
Qed.

End Dictionary.

(** When the names are distinct, the dictionary does not depend on the
    order in which the API lists the records. *)
Theorem get_instances_order_irrelevant (api1 api2 : Collaborators)
    (context : Context) (s1 s2 : state)
    (resp1 resp2 : gmap string (list (gmap string string))) :
  is_enabled api1 (project_id context) "notebooks" = true ->
  is_enabled api2 (project_id context) "notebooks" = true ->
  list_reply api1 (requests s1) (list_query api1 context) = Ok resp1 ->
  list_reply api2 (requests s2) (list_query api2 context) = Ok resp2 ->
  response_records resp1 ≡ₚ response_records resp2 ->
  Forall (fun r => is_Some (r !! NAME_KEY)) (response_records resp1) ->
  NoDup (record_names (response_records resp1)) ->
  exists m : gmap string Instance,
    fst (get_instances api1 context s1) = Ok m
    /\ fst (get_instances api2 context s2) = Ok m.
Proof.
  intros Hen1 Hen2 Hreply1 Hreply2 Hperm Hnamed1 Hnodup.
  assert (Forall (fun r => is_Some (r !! NAME_KEY)) (response_records resp2))
    as Hnamed2 by now rewrite <- Hperm.
  rewrite (get_instances_named api1 context s1 resp1) by assumption.
  rewrite (get_instances_named api2 context s2 resp2) by assumption.
  eexists. split; [reflexivity |]. simpl. f_equal.
  symmetry. now apply insert_records_Permutation.
Qed.

Lemma get_instances_entries_witness :
  let records := [sample_record "ACTIVE"; other_record] in
  let api := test_double true (Ok (listing records)) (Ok ∅) in
  Forall (fun r => is_Some (r !! NAME_KEY)) (response_records (listing records))
  /\ (forall k inst,
        insert_records "p1" records ∅ !! k = Some inst ->
        _project_id inst = "p1"
        /\ _resource_data inst ∈ response_records (listing records)
        /\ _resource_data inst !! NAME_KEY = Some k).
Proof.
  intros records api.
  apply (get_instances_entries api sample_context initial_state (listing records)
           (insert_records "p1" records ∅)
           (after_list_call api sample_context initial_state));
    reflexivity.
Defined.

Lemma get_instances_distinct_names_witness :
  let records := [sample_record "ACTIVE"; other_record] in
  let api := test_double true (Ok (listing records)) (Ok ∅) in
  exists m : gmap string Instance,
    get_instances api sample_context initial_state
    = (Ok m, after_list_call api sample_context initial_state)
    /\ size m = length (response_records (listing records))
    /\ (forall r,
          r ∈ response_records (listing records) ->
          exists k,
            r !! NAME_KEY = Some k /\ m !! k = Some (Instance_init "p1" r)).
Proof.
  intros records api.
  apply (get_instances_distinct_names api sample_context initial_state
           (listing records)).
  - reflexivity.
  - reflexivity.
  - vm_compute. repeat (constructor; [eexists; reflexivity |]). constructor.
  - apply (bool_decide_unpack _). vm_compute. exact I.
Defined.

Lemma get_instances_order_irrelevant_witness :
  let api1 :=
    test_double true (Ok (listing [sample_record "ACTIVE"; other_record])) (Ok ∅) in
  let api2 :=
    test_double true (Ok (listing [other_record; sample_record "ACTIVE"])) (Ok ∅) in
  exists m : gmap string Instance,
    fst (get_instances api1 sample_context initial_state) = Ok m
    /\ fst (get_instances api2 sample_context initial_state) = Ok m.
Proof.
  intros api1 api2.
  apply (get_instances_order_irrelevant api1 api2 sample_context
           initial_state initial_state
           (listing [sample_record "ACTIVE"; other_record])
           (listing [other_record; sample_record "ACTIVE"])).
  - reflexivity.
  - reflexivity.
  - reflexivity.
  - reflexivity.
  - apply perm_swap.
  - vm_compute. repeat (constructor; [eexists; reflexivity |]). constructor.
  - apply (bool_decide_unpack _). vm_compute. exact I.
Defined.
